(** * OutlineEditor: update scheduler, registries and view-model diff

    A shallow embedding of [packages/outline/src/OutlineEditor.js].

    JavaScript objects that are compared by reference ([ViewModel]s, DOM
    elements, callbacks) are handles; the [ViewModel] objects live in an
    explicit heap.  The microtask queue fed by [Promise.resolve().then] is
    a FIFO list of jobs.  Calls that leave the module (the change callback,
    the reconciler) are recorded in a log so that their number, order and
    the scheduler state they observe can be stated. *)

From stdpp Require Import gmap strings list fin_maps.
From Stdlib Require Import ZArith.

(** ** Values *)

Abbreviation NodeKey := string.

(** A DOM element, a change callback and a text transform are objects or
    closures of the host: only their identity is visible here. *)
Inductive HTMLElement := Element (id : positive).
Inductive Callback := Fn (id : positive).
Inductive Transform := TransformFn (id : positive).

(** A reference to a [ViewModel] object; [===] on view models is equality of
    references. *)
Abbreviation vmref := positive.

#[global] Instance HTMLElement_eq_dec : EqDecision HTMLElement.
Proof. solve_decision. Defined.
#[global] Instance Callback_eq_dec : EqDecision Callback.
Proof. solve_decision. Defined.
#[global] Instance Transform_eq_dec : EqDecision Transform.
Proof. solve_decision. Defined.

(** The classes imported from [./nodes/*]; [Custom] stands for any class a
    caller registers. *)
Inductive NodeClass :=
| BlockNode | TextNode | BodyNode | ParagraphNode | HeaderNode
| Custom (name : string).

(** Modelled from the spec: the [Node] record of [./OutlineNode], which is
    not part of the sources at hand.  A node has a stable key, a type tag and
    its place in the tree (parent and children keys). *)
Record Node := mkNode {
  node_type : string;
  node_key : NodeKey;
  node_parent : option NodeKey;
  node_children : list NodeKey;
}.

(** Modelled from the spec: the [Selection] of [./OutlineSelection], opaque
    to this module (anchor and focus keys with offsets). *)
Record Selection := mkSelection {
  anchorKey : NodeKey;
  anchorOffset : Z;
  focusKey : NodeKey;
  focusOffset : Z;
}.

(** A JavaScript [Set] iterates in insertion order and holds no element
    twice: it is kept as the list of its elements in iteration order, which
    is what [Array.from] returns. *)
Module JSSet.
Section Ops.
Context {A : Type} `{EqDecision A}.

Definition t := list A.

Definition empty : t := [].

Definition has (x : A) (s : t) : bool := bool_decide (x ∈ s).

Definition add (x : A) (s : t) : t :=
  if has x s then s else s ++ [x].

Definition delete (x : A) (s : t) : t :=
  filter (λ y, y ≠ x) s.

Definition Array_from (s : t) : list A := s.
End Ops.
Arguments t : clear implicits.
End JSSet.

(** Modelled from the spec: the [ViewModel] class of [./OutlineView].  The
    fields [nodeMap], [selection], [_dirtyNodes] and [_dirtySubTrees] are the
    ones [OutlineEditor.js] reads; [timeStamp] is the creation instant the
    data model lists.  A dirty set is [None] when the field holds [null].
    [nodeMap] is a plain object (line 22 writes [viewModel.nodeMap.body]):
    the map holds its own properties, and its prototype is
    [Object.prototype]. *)
Record ViewModel := mkViewModel {
  nodeMap : gmap NodeKey Node;
  selection : option Selection;
  _dirtyNodes : option (JSSet.t NodeKey);
  _dirtySubTrees : option (JSSet.t NodeKey);
  timeStamp : Z;
}.

(** ** Completions *)

(** [throw new Error(msg)]. *)
Inductive JSError := Error (message : string).

(** The completion of a call that reads the state only. *)
Inductive completion (A : Type) :=
| Return (a : A)
| Throw (e : JSError).
Arguments Return {A} a.
Arguments Throw {A} e.

(** ** The editor object *)

Record OutlineEditor := mkOutlineEditor {
  _editorElement : HTMLElement;
  _viewModel : vmref;
  _isUpdating : bool;
  _keyToDOMMap : gmap NodeKey HTMLElement;
  _onChange : option Callback;
  _textTransforms : JSSet.t Transform;
  _registeredNodeTypes : gmap string NodeClass;
}.

(** [new OutlineEditor(editorElement, viewModel, onChange)] *)
Definition new_OutlineEditor (editorElement : HTMLElement) (viewModel : vmref)
    (onChange : option Callback) : OutlineEditor :=
  {| _editorElement := editorElement;
     _viewModel := viewModel;
     _isUpdating := false;
     _keyToDOMMap := ∅;
     _onChange := onChange;
     _textTransforms := JSSet.empty;
     _registeredNodeTypes :=
       <["header"%string := HeaderNode]>
         (<["paragraph"%string := ParagraphNode]>
            (<["body"%string := BodyNode]>
               (<["text"%string := TextNode]>
                  (<["block"%string := BlockNode]> ∅)))) |}.

Definition set_isUpdating (b : bool) (e : OutlineEditor) : OutlineEditor :=
  {| _editorElement := _editorElement e;
     _viewModel := _viewModel e;
     _isUpdating := b;
     _keyToDOMMap := _keyToDOMMap e;
     _onChange := _onChange e;
     _textTransforms := _textTransforms e;
     _registeredNodeTypes := _registeredNodeTypes e |}.

Definition set_viewModel (vm : vmref) (e : OutlineEditor) : OutlineEditor :=
  {| _editorElement := _editorElement e;
     _viewModel := vm;
     _isUpdating := _isUpdating e;
     _keyToDOMMap := _keyToDOMMap e;
     _onChange := _onChange e;
     _textTransforms := _textTransforms e;
     _registeredNodeTypes := _registeredNodeTypes e |}.

Definition set_keyToDOMMap (m : gmap NodeKey HTMLElement) (e : OutlineEditor)
    : OutlineEditor :=
  {| _editorElement := _editorElement e;
     _viewModel := _viewModel e;
     _isUpdating := _isUpdating e;
     _keyToDOMMap := m;
     _onChange := _onChange e;
     _textTransforms := _textTransforms e;
     _registeredNodeTypes := _registeredNodeTypes e |}.

Definition set_textTransforms (s : JSSet.t Transform) (e : OutlineEditor)
    : OutlineEditor :=
  {| _editorElement := _editorElement e;
     _viewModel := _viewModel e;
     _isUpdating := _isUpdating e;
     _keyToDOMMap := _keyToDOMMap e;
     _onChange := _onChange e;
     _textTransforms := s;
     _registeredNodeTypes := _registeredNodeTypes e |}.

Definition set_registeredNodeTypes (m : gmap string NodeClass)
    (e : OutlineEditor) : OutlineEditor :=
  {| _editorElement := _editorElement e;
     _viewModel := _viewModel e;
     _isUpdating := _isUpdating e;
     _keyToDOMMap := _keyToDOMMap e;
     _onChange := _onChange e;
     _textTransforms := _textTransforms e;
     _registeredNodeTypes := m |}.

(** *** Registries *)

(** The closure a registration returns; it captures what it will delete. *)
Inductive Unregister :=
| DeleteNodeType (nodeType : string)
| DeleteTextTransform (transformFn : Transform).

Definition addNodeType (nodeType : string) (klass : NodeClass)
    (e : OutlineEditor) : Unregister * OutlineEditor :=
  (DeleteNodeType nodeType,
   set_registeredNodeTypes (<[nodeType := klass]> (_registeredNodeTypes e)) e).

Definition addTextTransform (transformFn : Transform) (e : OutlineEditor)
    : Unregister * OutlineEditor :=
  (DeleteTextTransform transformFn,
   set_textTransforms (JSSet.add transformFn (_textTransforms e)) e).

(** Calling the closure. *)
Definition invoke (u : Unregister) (e : OutlineEditor) : OutlineEditor :=
  match u with
  | DeleteNodeType nodeType =>
      set_registeredNodeTypes (delete nodeType (_registeredNodeTypes e)) e
  | DeleteTextTransform transformFn =>
      set_textTransforms (JSSet.delete transformFn (_textTransforms e)) e
  end.

(** *** Accessors *)

Definition isUpdating (e : OutlineEditor) : bool := _isUpdating e.

Definition getEditorElement (e : OutlineEditor) : HTMLElement :=
  _editorElement e.

Definition getCurrentViewModel (e : OutlineEditor) : vmref := _viewModel e.

Definition getElementByKey (key : NodeKey) (e : OutlineEditor)
    : completion HTMLElement :=
  match _keyToDOMMap e !! key with
  | None => Throw (Error (String.append "getElementByKey failed for key "%string key))
  | Some element => Return element
  end.

(** *** Diff *)

(** What the read [nodeMap[nodeKey]] on the plain object [nodeMap] may
    yield: the node stored under the key, [undefined], or the member of
    [Object.prototype] of that name, found along the prototype chain. *)
Inductive Entry :=
| NodeEntry (n : Node)
| Undefined
| Inherited (name : string).

(** The property names of [Object.prototype] (ECMAScript, with Annex B). *)
Definition Object_prototype : list string :=
  ["constructor"; "__defineGetter__"; "__defineSetter__"; "hasOwnProperty";
   "__lookupGetter__"; "__lookupSetter__"; "isPrototypeOf";
   "propertyIsEnumerable"; "toString"; "valueOf"; "__proto__";
   "toLocaleString"]%string.

(** [nodeMap[nodeKey]]: an own property first, then the prototype. *)
Definition getProperty (nodeMap : gmap NodeKey Node) (nodeKey : NodeKey)
    : Entry :=
  match nodeMap !! nodeKey with
  | Some n => NodeEntry n
  | None =>
      if bool_decide (nodeKey ∈ Object_prototype)
      then Inherited nodeKey
      else Undefined
  end.

(** [nodes] holds what [nodeMap[nodeKey]] evaluates to for each dirty
    key. *)
Record ViewModelDiffType := mkDiff {
  diff_dirtySubTrees : JSSet.t NodeKey;
  diff_nodes : list Entry;
  diff_selection : option Selection;
  diff_timeStamp : Z;
}.

(** [now] is the value [Date.now()] returns during the call. *)
Definition getDiffFromViewModel (now : Z) (viewModel : ViewModel)
    : completion ViewModelDiffType :=
  let dirtySubTrees := _dirtySubTrees viewModel in
  let dirtyNodes := _dirtyNodes viewModel in
  let nodeMap := nodeMap viewModel in
  match dirtyNodes, dirtySubTrees with
  | Some dirtyNodes, Some dirtySubTrees =>
      Return
        {| diff_dirtySubTrees := dirtySubTrees;
           diff_nodes :=
             map (λ nodeKey, getProperty nodeMap nodeKey)
               (JSSet.Array_from dirtyNodes);
           diff_selection := selection viewModel;
           diff_timeStamp := now |}
  | _, _ =>
      Throw (Error "getDiffFromViewModel: unable to get diff from view mode"%string)
  end.

(** ** The realm around the editor *)

(** The job [update] hands to [Promise.resolve().then]: an arrow function
    closed over [this] and [viewModel]. *)
Inductive Microtask := Commit (viewModel : vmref).

(** Calls that leave this module.  [UpdateViewModel vm b] is the reconciler
    entered with [vm] while [_isUpdating] holds [b]. *)
Inductive Event :=
| OnChange (callback : Callback) (viewModel : vmref)
| UpdateViewModel (viewModel : vmref) (updating : bool).

Record Realm := mkRealm {
  heap : gmap vmref ViewModel;
  microtasks : list Microtask;
  log : list Event;
}.

Record World := mkWorld {
  this : OutlineEditor;
  realm : Realm;
}.

Definition on_this (f : OutlineEditor → OutlineEditor) (w : World) : World :=
  {| this := f (this w); realm := realm w |}.

Definition on_realm (f : Realm → Realm) (w : World) : World :=
  {| this := this w; realm := f (realm w) |}.

Definition set_heap (h : gmap vmref ViewModel) (r : Realm) : Realm :=
  {| heap := h; microtasks := microtasks r; log := log r |}.

Definition set_microtasks (q : list Microtask) (r : Realm) : Realm :=
  {| heap := heap r; microtasks := q; log := log r |}.

(** [Promise.resolve().then(job)] *)
Definition enqueue (job : Microtask) (r : Realm) : Realm :=
  set_microtasks (microtasks r ++ [job]) r.

Definition emit (ev : Event) (r : Realm) : Realm :=
  {| heap := heap r; microtasks := microtasks r; log := log r ++ [ev] |}.

(** [if (typeof onChange === 'function') onChange(viewModel)] *)
Definition notify (onChange : option Callback) (viewModel : vmref)
    (r : Realm) : Realm :=
  match onChange with
  | Some callback => emit (OnChange callback viewModel) r
  | None => r
  end.

(** The completion of a call that may change the state. *)
Inductive outcome :=
| Returns (w : World)
| Throws (e : JSError) (w : World).

Definition state_of (o : outcome) : World :=
  match o with
  | Returns w => w
  | Throws _ w => w
  end.

(** *** Construction *)

(** Modelled from the spec: [createBodyNode] of [./nodes/OutlineBodyNode], a
    freshly created root node; it is stored under the key [body]. *)
Definition createBodyNode : Node :=
  {| node_type := "body"; node_key := "body";
     node_parent := None; node_children := [] |}.

(** Modelled from the spec: the constructor of [ViewModel]; the snapshot it
    builds carries no node yet, no selection and no dirty tracking, and is
    stamped with the instant of its creation. *)
Definition new_ViewModel (body : Node) (now : Z) : ViewModel :=
  {| nodeMap := ∅; selection := None;
     _dirtyNodes := None; _dirtySubTrees := None; timeStamp := now |}.

Definition set_nodeMap (m : gmap NodeKey Node) (vm : ViewModel) : ViewModel :=
  {| nodeMap := m; selection := selection vm;
     _dirtyNodes := _dirtyNodes vm; _dirtySubTrees := _dirtySubTrees vm;
     timeStamp := timeStamp vm |}.

(** [new] on the heap: the object gets a reference not in use. *)
Definition alloc (vm : ViewModel) (h : gmap vmref ViewModel)
    : vmref * gmap vmref ViewModel :=
  let r := fresh (dom h) in (r, <[r := vm]> h).

Definition createOutlineEditor (editorElement : HTMLElement)
    (onChange : option Callback) (now : Z) (r : Realm) : World :=
  let body := createBodyNode in
  let '(viewModel, h) := alloc (new_ViewModel body now) (heap r) in
  let h :=
    alter (λ vm, set_nodeMap (<["body"%string := body]> (nodeMap vm)) vm)
      viewModel h in
  let outlineEditor := new_OutlineEditor editorElement viewModel onChange in
  let outlineEditor :=
    set_keyToDOMMap
      (<["body"%string := editorElement]> (_keyToDOMMap outlineEditor))
      outlineEditor in
  {| this := outlineEditor;
     realm := notify onChange viewModel (set_heap h r) |}.

(** *** The update scheduler *)

(** [forceSync?: boolean] under [if (forceSync)]: absent is falsy. *)
Definition truthy (forceSync : option bool) : bool :=
  match forceSync with
  | Some b => b
  | None => false
  end.

Definition clear_dirty (vm : ViewModel) : ViewModel :=
  {| nodeMap := nodeMap vm; selection := selection vm;
     _dirtyNodes := None; _dirtySubTrees := None;
     timeStamp := timeStamp vm |}.

(** The patching of the presentation surface, which the interface of the
    reconciler leaves open: from the view model to commit and the bindings
    so far to the bindings afterwards. *)
Class Reconciler :=
  reconcileViewModel :
    ViewModel → gmap NodeKey HTMLElement → gmap NodeKey HTMLElement.

Section Scheduler.

Context `{R : Reconciler}.

(** Modelled from the spec: [updateViewModel] of [./OutlineView], the
    reconciler.  It patches the presentation surface and the key to
    element mapping, commits [viewModel] as the current view model of the
    editor, clears its dirty sets, and the change callback is called with
    the view model just committed. *)
Definition updateViewModel (viewModel : vmref) (w : World) : World :=
  let outlineEditor := this w in
  let r := emit (UpdateViewModel viewModel (_isUpdating outlineEditor))
             (realm w) in
  let bindings :=
    match heap r !! viewModel with
    | Some vm => reconcileViewModel vm (_keyToDOMMap outlineEditor)
    | None => _keyToDOMMap outlineEditor
    end in
  let outlineEditor :=
    set_viewModel viewModel (set_keyToDOMMap bindings outlineEditor) in
  let r := set_heap (alter clear_dirty viewModel (heap r)) r in
  {| this := outlineEditor;
     realm := notify (_onChange outlineEditor) viewModel r |}.

Definition update (viewModel : vmref) (forceSync : option bool) (w : World)
    : outcome :=
  if _isUpdating (this w) then
    Throws (Error "TODOL: Should never occur?") w
  else if decide (viewModel = _viewModel (this w)) then
    Returns w
  else if truthy forceSync then
    Returns (updateViewModel viewModel w)
  else
    Returns (on_realm (enqueue (Commit viewModel))
               (on_this (set_isUpdating true) w)).

(** The body of the job. *)
Definition run (job : Microtask) (w : World) : World :=
  match job with
  | Commit viewModel =>
      updateViewModel viewModel (on_this (set_isUpdating false) w)
  end.

(** The deferred boundary: the oldest job leaves the queue and runs. *)
Definition boundary (w : World) : option World :=
  match microtasks (realm w) with
  | [] => None
  | job :: rest => Some (run job (on_realm (set_microtasks rest) w))
  end.

(** The queue is run until it is empty, [fuel] jobs at most. *)
Fixpoint drain (fuel : nat) (w : World) : World :=
  match fuel with
  | O => w
  | S fuel =>
      match boundary w with
      | Some w' => drain fuel w'
      | None => w
      end
  end.

(** What a caller may do with the editor within a synchronous turn
    ([createViewModel] hands over to the factory of [./OutlineView] and is
    left out). *)
Inductive Call :=
| CallUpdate (viewModel : vmref) (forceSync : option bool)
| CallAddNodeType (nodeType : string) (klass : NodeClass)
| CallAddTextTransform (transformFn : Transform)
| CallInvoke (u : Unregister)
| CallIsUpdating
| CallGetEditorElement
| CallGetCurrentViewModel
| CallGetElementByKey (key : NodeKey)
| CallGetDiffFromViewModel (now : Z) (viewModel : vmref).

(** The state a call leaves behind, whether it returns or throws. *)
Definition perform (c : Call) (w : World) : World :=
  match c with
  | CallUpdate viewModel forceSync => state_of (update viewModel forceSync w)
  | CallAddNodeType nodeType klass =>
      on_this (λ e, snd (addNodeType nodeType klass e)) w
  | CallAddTextTransform transformFn =>
      on_this (λ e, snd (addTextTransform transformFn e)) w
  | CallInvoke u => on_this (invoke u) w
  | CallIsUpdating | CallGetEditorElement | CallGetCurrentViewModel
  | CallGetElementByKey _ | CallGetDiffFromViewModel _ _ => w
  end.

Definition perform_all (cs : list Call) (w : World) : World :=
  foldl (λ w c, perform c w) w cs.

(** The two states of the scheduler as the flag and the queue show them:
    idle with nothing queued, or pending with the one commit queued. *)
Definition consistent (w : World) : Prop :=
  if _isUpdating (this w)
  then ∃ viewModel, microtasks (realm w) = [Commit viewModel]
  else microtasks (realm w) = [].

(** One turn per request: the call to [update], then the boundary. *)
Fixpoint turns (requests : list (vmref * option bool)) (w : World)
    : outcome :=
  match requests with
  | [] => Returns w
  | (viewModel, forceSync) :: requests =>
      match update viewModel forceSync w with
      | Returns w' => turns requests (drain (length (microtasks (realm w'))) w')
      | Throws e w' => Throws e w'
      end
  end.

End Scheduler.

(** ** The React hook *)

Definition set_onChange (onChange : option Callback) (e : OutlineEditor)
    : OutlineEditor :=
  {| _editorElement := _editorElement e;
     _viewModel := _viewModel e;
     _isUpdating := _isUpdating e;
     _keyToDOMMap := _keyToDOMMap e;
     _onChange := onChange;
     _textTransforms := _textTransforms e;
     _registeredNodeTypes := _registeredNodeTypes e |}.

(** What one render hands to [useOutlineEditor], as the effect sees it
    when it runs: the element the ref holds ([None] is [null]), the
    [onChange] argument, and the clock. *)
Record Render := mkRender {
  current : option HTMLElement;
  onChange_arg : option Callback;
  render_now : Z;
}.

(** The state cell of [useState] (the editor object it refers to, [None]
    for [null]) and the realm.  Jobs an editor has queued stay with the
    realm; no boundary is taken here. *)
Record Hook := mkHook {
  outlineEditor : option OutlineEditor;
  host : Realm;
}.

(** [useState<null | OutlineEditor>(null)] *)
Definition useState_initial (r : Realm) : Hook :=
  {| outlineEditor := None; host := r |}.

(** The body of the effect of [useOutlineEditor], run after a render: the
    state cell and the realm it leaves. *)
Definition useOutlineEditor_effect (rd : Render) (h : Hook) : Hook :=
  let editorElement := current rd in
  match editorElement with
  | Some editorElement =>
      match outlineEditor h with
      | None =>
          let newOutlineEditor :=
            createOutlineEditor editorElement (onChange_arg rd)
              (render_now rd) (host h) in
          {| outlineEditor := Some (this newOutlineEditor);
             host := realm newOutlineEditor |}
      | Some e =>
          {| outlineEditor := Some (set_onChange (onChange_arg rd) e);
             host := host h |}
      end
  | None =>
      match outlineEditor h with
      | Some _ => {| outlineEditor := None; host := host h |}
      | None => h
      end
  end.

(** What [useOutlineEditor] returns to the component. *)
Definition useOutlineEditor (h : Hook) : option OutlineEditor :=
  outlineEditor h.

(** The effect body run once per entry, in order.  React runs the effect
    after the first render and after a render in which one of the
    dependencies [[editorElementRef, onChange, outlineEditor]] changed: an
    entry is a render after which the effect runs, so what holds for every
    list holds for every history of the hook. *)
Definition renders (rds : list Render) (h : Hook) : Hook :=
  foldl (λ h rd, useOutlineEditor_effect rd h) h rds.

(** ** Histories of one editor *)

Section Histories.

Context `{R : Reconciler}.

(** A step of the host on one editor: a call, or the boundary (which does
    nothing when no job is queued). *)
Inductive Step :=
| Do (c : Call)
| Boundary.

Definition step (s : Step) (w : World) : World :=
  match s with
  | Do c => perform c w
  | Boundary => default w (boundary w)
  end.

Definition steps (ss : list Step) (w : World) : World :=
  foldl (λ w s, step s w) w ss.

End Histories.

(** ** Sample states *)

Module Samples.

Definition para : Node :=
  {| node_type := "paragraph"; node_key := "p1";
     node_parent := Some "body"%string; node_children := ["t1"%string] |}.

Definition text : Node :=
  {| node_type := "text"; node_key := "t1";
     node_parent := Some "p1"%string; node_children := [] |}.

(** A pending view model with dirty keys [t1], [p1] (in that order). *)
Definition pendingVM : ViewModel :=
  {| nodeMap :=
       <["t1"%string := text]>
         (<["p1"%string := para]> (<["body"%string := createBodyNode]> ∅));
     selection := Some (mkSelection "t1" 0 "t1" 3);
     _dirtyNodes := Some ["t1"%string; "p1"%string];
     _dirtySubTrees := Some ["p1"%string; "body"%string];
     timeStamp := 1000 |}.

(** A pending view model whose dirty key [gone] has no node. *)
Definition danglingVM : ViewModel :=
  {| nodeMap := <["body"%string := createBodyNode]> ∅;
     selection := None;
     _dirtyNodes := Some ["body"%string; "gone"%string];
     _dirtySubTrees := Some ["body"%string];
     timeStamp := 1000 |}.

(** A pending view model whose dirty key [constructor] has no node. *)
Definition inheritedVM : ViewModel :=
  {| nodeMap := <["body"%string := createBodyNode]> ∅;
     selection := None;
     _dirtyNodes := Some ["body"%string; "constructor"%string];
     _dirtySubTrees := Some ["body"%string];
     timeStamp := 1000 |}.

Definition committedVM : ViewModel := clear_dirty pendingVM.

Definition emptyRealm : Realm :=
  {| heap := ∅; microtasks := []; log := [] |}.

(** A reconciler that binds nothing new. *)
#[global] Instance keepBindings : Reconciler := λ vm m, m.

(** The editor as constructed, with a change callback. *)
Definition fresh_world : World :=
  createOutlineEditor (Element 1) (Some (Fn 1)) 0 emptyRealm.

(** The same with two pending view models on the heap. *)
Definition idle_world : World :=
  on_realm (λ r, set_heap (<[7%positive := pendingVM]>
                            (<[8%positive := danglingVM]> (heap r))) r)
    fresh_world.

(** After [update(7)]: a commit is scheduled. *)
Definition pending_world : World :=
  state_of (update 7%positive None idle_world).

End Samples.

(** ** Diff computation *)

Example getDiff_pending_sample :
  getDiffFromViewModel 2000 Samples.pendingVM =
  Return {| diff_dirtySubTrees := ["p1"%string; "body"%string];
            diff_nodes := [NodeEntry Samples.text; NodeEntry Samples.para];
            diff_selection := Some (mkSelection "t1" 0 "t1" 3);
            diff_timeStamp := 2000 |}.
Proof. vm_compute. reflexivity. Qed.

Example getDiff_stamp_differs :
  ∃ d, getDiffFromViewModel 2000 Samples.pendingVM = Return d
       ∧ diff_timeStamp d ≠ timeStamp Samples.pendingVM.
Proof. eexists. split; [reflexivity|]. vm_compute. discriminate. Qed.

Example getDiff_dangling_sample :
  getDiffFromViewModel 2000 Samples.danglingVM =
  Return {| diff_dirtySubTrees := ["body"%string];
            diff_nodes := [NodeEntry createBodyNode; Undefined];
            diff_selection := None;
            diff_timeStamp := 2000 |}.
Proof. vm_compute. reflexivity. Qed.

Example getDiff_inherited_sample :
  getDiffFromViewModel 2000 Samples.inheritedVM =
  Return {| diff_dirtySubTrees := ["body"%string];
            diff_nodes := [NodeEntry createBodyNode; Inherited "constructor"];
            diff_selection := None;
            diff_timeStamp := 2000 |}.
Proof. vm_compute. reflexivity. Qed.

Lemma getProperty_own (m : gmap NodeKey Node) (k : NodeKey) (n : Node) :
  m !! k = Some n → getProperty m k = NodeEntry n.
Proof. intros H. unfold getProperty. by rewrite H. Qed.

Lemma getProperty_absent (m : gmap NodeKey Node) (k : NodeKey) :
  m !! k = None →
  getProperty m k
  = if bool_decide (k ∈ Object_prototype) then Inherited k else Undefined.
Proof. intros H. unfold getProperty. by rewrite H. Qed.

Lemma getProperty_node (m : gmap NodeKey Node) (k : NodeKey) (n : Node) :
  getProperty m k = NodeEntry n ↔ m !! k = Some n.
Proof.
  split; [|apply getProperty_own].
  unfold getProperty. destruct (m !! k) as [n'|]; [by intros [= ->]|].
  by case_bool_decide.
Qed.

Lemma getDiff_pending_eq (now : Z) (vm : ViewModel)
    (dirtyNodes dirtySubTrees : list NodeKey) :
  _dirtyNodes vm = Some dirtyNodes →
  _dirtySubTrees vm = Some dirtySubTrees →
  getDiffFromViewModel now vm =
  Return {| diff_dirtySubTrees := dirtySubTrees;
            diff_nodes := map (getProperty (nodeMap vm)) dirtyNodes;
            diff_selection := selection vm;
            diff_timeStamp := now |}.
Proof.
  intros Hn Hs. unfold getDiffFromViewModel. rewrite Hn, Hs. reflexivity.
Qed.

(** C5. On a pending view model (both dirty sets present) the diff is
    returned: it carries the dirty-subtree set and the selection of the view
    model, the clock value of the call as its time stamp, and as [nodes] one
    entry per dirty key, in the iteration order of the dirty set: the entry
    at the position of a key is what the lookup of that key in the node map
    of the view model gives, the node stored under the key when there is
    one; for dirty keys [a], [b] bound to nodes, [nodes] is exactly these
    two nodes. *)
Theorem getDiffFromViewModel_pending (now : Z) (vm : ViewModel)
    (dirtyNodes dirtySubTrees : list NodeKey) :
  _dirtyNodes vm = Some dirtyNodes →
  _dirtySubTrees vm = Some dirtySubTrees →
  ∃ d, getDiffFromViewModel now vm = Return d
    ∧ diff_dirtySubTrees d = dirtySubTrees
    ∧ diff_selection d = selection vm
    ∧ diff_timeStamp d = now
    ∧ length (diff_nodes d) = length dirtyNodes
    ∧ (∀ (i : nat) (k : NodeKey) (n : Node),
         dirtyNodes !! i = Some k →
         nodeMap vm !! k = Some n →
         diff_nodes d !! i = Some (NodeEntry n))
    ∧ (∀ (i : nat) (k : NodeKey),
         dirtyNodes !! i = Some k →
         nodeMap vm !! k = None →
         diff_nodes d !! i
         = Some (if bool_decide (k ∈ Object_prototype)
                 then Inherited k else Undefined))
    ∧ (∀ (a b : NodeKey) (na nb : Node),
         dirtyNodes = [a; b] →
         nodeMap vm !! a = Some na → nodeMap vm !! b = Some nb →
         diff_nodes d = [NodeEntry na; NodeEntry nb]).
Proof.
  intros Hn Hs. eexists. split; [by apply getDiff_pending_eq|]. simpl.
  repeat split.
  - by rewrite length_map.
  - intros i k n Hi Hk. rewrite list_lookup_fmap, Hi. simpl.
    by rewrite (getProperty_own _ _ _ Hk).
  - intros i k Hi Hk. rewrite list_lookup_fmap, Hi. simpl.
    by rewrite (getProperty_absent _ _ Hk).
  - intros a b na nb -> Ha Hb. simpl.
    by rewrite (getProperty_own _ _ _ Ha), (getProperty_own _ _ _ Hb).
Qed.

Lemma getDiffFromViewModel_pending_witness :
  ∃ d, getDiffFromViewModel 2000 Samples.pendingVM = Return d
    ∧ diff_dirtySubTrees d = ["p1"%string; "body"%string]
    ∧ diff_selection d = selection Samples.pendingVM
    ∧ diff_timeStamp d = 2000%Z
    ∧ length (diff_nodes d) = length ["t1"%string; "p1"%string]
    ∧ (∀ (i : nat) (k : NodeKey) (n : Node),
         ["t1"%string; "p1"%string] !! i = Some k →
         nodeMap Samples.pendingVM !! k = Some n →
         diff_nodes d !! i = Some (NodeEntry n))
    ∧ (∀ (i : nat) (k : NodeKey),
         ["t1"%string; "p1"%string] !! i = Some k →
         nodeMap Samples.pendingVM !! k = None →
         diff_nodes d !! i
         = Some (if bool_decide (k ∈ Object_prototype)
                 then Inherited k else Undefined))
    ∧ (∀ (a b : NodeKey) (na nb : Node),
         ["t1"%string; "p1"%string] = [a; b] →
         nodeMap Samples.pendingVM !! a = Some na →
         nodeMap Samples.pendingVM !! b = Some nb →
         diff_nodes d = [NodeEntry na; NodeEntry nb]).
Proof.
  apply (getDiffFromViewModel_pending 2000 Samples.pendingVM
           ["t1"%string; "p1"%string] ["p1"%string; "body"%string]);
    reflexivity.
Defined.

(** C6. When [_dirtyNodes] or [_dirtySubTrees] is null the call throws and
    no diff record is returned. *)
Theorem getDiffFromViewModel_committed (now : Z) (vm : ViewModel) :
  _dirtyNodes vm = None ∨ _dirtySubTrees vm = None →
  getDiffFromViewModel now vm
  = Throw (Error "getDiffFromViewModel: unable to get diff from view mode")
  ∧ ∀ d, getDiffFromViewModel now vm ≠ Return d.
Proof.
  intros H.
  assert (getDiffFromViewModel now vm
          = Throw (Error
              "getDiffFromViewModel: unable to get diff from view mode")) as E.
  { unfold getDiffFromViewModel.
    destruct H as [-> | ->]; [reflexivity|].
    by destruct (_dirtyNodes vm). }
  split; [exact E|]. intros d. rewrite E. discriminate.
Qed.

Lemma getDiffFromViewModel_committed_witness :
  getDiffFromViewModel 2000 Samples.committedVM
  = Throw (Error "getDiffFromViewModel: unable to get diff from view mode")
  ∧ ∀ d, getDiffFromViewModel 2000 Samples.committedVM ≠ Return d.
Proof.
  apply (getDiffFromViewModel_committed 2000 Samples.committedVM).
  left. reflexivity.
Defined.

(** C10, as the claim states it, fails: a dirty key without a node does
    not always give [undefined].  In this pending view model the dirty key
    [constructor] has no node in the node map, the call returns, and the
    entry at the position of the key is the member of [Object.prototype]
    of that name, not [undefined]. *)
Lemma getDiffFromViewModel_missing_node_not_undefined :
  _dirtyNodes Samples.inheritedVM
  = Some ["body"%string; "constructor"%string]
  ∧ _dirtySubTrees Samples.inheritedVM = Some ["body"%string]
  ∧ ["body"%string; "constructor"%string] !! 1%nat = Some "constructor"%string
  ∧ nodeMap Samples.inheritedVM !! "constructor"%string = None
  ∧ ∃ d, getDiffFromViewModel 2000 Samples.inheritedVM = Return d
      ∧ diff_nodes d !! 1%nat = Some (Inherited "constructor")
      ∧ diff_nodes d !! 1%nat ≠ Some Undefined.
Proof.
  repeat split; try reflexivity.
  eexists. split; [reflexivity|]. split; [reflexivity|].
  vm_compute. discriminate.
Qed.

(** C10, amended. Dirty keys are not checked against the node map: on a
    pending view model with a dirty key that has no node of its own in the
    node map, the call still returns a diff with one entry per dirty key,
    and the entry at the position of that key is never a node: it is
    [undefined], unless the key is the name of a member of
    [Object.prototype], in which case it is that member. *)
Theorem getDiffFromViewModel_missing_node (now : Z) (vm : ViewModel)
    (dirtyNodes dirtySubTrees : list NodeKey) (i : nat) (k : NodeKey) :
  _dirtyNodes vm = Some dirtyNodes →
  _dirtySubTrees vm = Some dirtySubTrees →
  dirtyNodes !! i = Some k →
  nodeMap vm !! k = None →
  ∃ d, getDiffFromViewModel now vm = Return d
    ∧ length (diff_nodes d) = length dirtyNodes
    ∧ (∀ n : Node, diff_nodes d !! i ≠ Some (NodeEntry n))
    ∧ (k ∉ Object_prototype → diff_nodes d !! i = Some Undefined)
    ∧ (k ∈ Object_prototype → diff_nodes d !! i = Some (Inherited k)).
Proof.
  intros Hn Hs Hi Hk. eexists. split; [by apply getDiff_pending_eq|]. simpl.
  split; [by rewrite length_map|].
  rewrite list_lookup_fmap, Hi. simpl. rewrite (getProperty_absent _ _ Hk).
  case_bool_decide; repeat split; try done; by intros ?.
Qed.

Lemma getDiffFromViewModel_missing_node_witness :
  (∃ d, getDiffFromViewModel 2000 Samples.danglingVM = Return d
     ∧ length (diff_nodes d) = length ["body"%string; "gone"%string]
     ∧ (∀ n : Node, diff_nodes d !! 1%nat ≠ Some (NodeEntry n))
     ∧ ("gone"%string ∉ Object_prototype →
        diff_nodes d !! 1%nat = Some Undefined)
     ∧ ("gone"%string ∈ Object_prototype →
        diff_nodes d !! 1%nat = Some (Inherited "gone")))
  ∧ (∃ d, getDiffFromViewModel 2000 Samples.inheritedVM = Return d
       ∧ length (diff_nodes d) = length ["body"%string; "constructor"%string]
       ∧ (∀ n : Node, diff_nodes d !! 1%nat ≠ Some (NodeEntry n))
       ∧ ("constructor"%string ∉ Object_prototype →
          diff_nodes d !! 1%nat = Some Undefined)
       ∧ ("constructor"%string ∈ Object_prototype →
          diff_nodes d !! 1%nat = Some (Inherited "constructor"))).
Proof.
  split.
  - apply (getDiffFromViewModel_missing_node 2000 Samples.danglingVM
             ["body"%string; "gone"%string] ["body"%string] 1 "gone");
      reflexivity.
  - apply (getDiffFromViewModel_missing_node 2000 Samples.inheritedVM
             ["body"%string; "constructor"%string] ["body"%string] 1
             "constructor");
      reflexivity.
Defined.

(** ** Registries *)

Example addNodeType_sample :
  let e := this Samples.fresh_world in
  let '(unregister, e1) := addNodeType "custom" (Custom "K") e in
  _registeredNodeTypes e1 !! "custom"%string = Some (Custom "K")
  ∧ _registeredNodeTypes (invoke unregister e1) !! "custom"%string = None
  ∧ _registeredNodeTypes (invoke unregister e1) = _registeredNodeTypes e.
Proof. vm_compute. repeat split; reflexivity. Qed.

(** Overwriting a built-in entry and unregistering drops the entry; the
    class registered before is not restored. *)
Example addNodeType_overwrite_sample :
  let e := this Samples.fresh_world in
  let '(unregister, e1) := addNodeType "text" (Custom "K") e in
  _registeredNodeTypes e !! "text"%string = Some TextNode
  ∧ _registeredNodeTypes e1 !! "text"%string = Some (Custom "K")
  ∧ _registeredNodeTypes (invoke unregister e1) !! "text"%string = None.
Proof. vm_compute. repeat split; reflexivity. Qed.

(** C8. [addNodeType] binds the type name to the class, whatever was bound
    before, and leaves the other entries alone.  The closure it returns, run
    on the editor then or in any later state, removes the entry of that name
    and no other; run again it changes nothing. *)
Theorem addNodeType_unregister (nodeType : string) (klass : NodeClass)
    (e : OutlineEditor) :
  let unregister := fst (addNodeType nodeType klass e) in
  let e1 := snd (addNodeType nodeType klass e) in
  _registeredNodeTypes e1 !! nodeType = Some klass
  ∧ (∀ other : string, other ≠ nodeType →
       _registeredNodeTypes e1 !! other = _registeredNodeTypes e !! other)
  ∧ ∀ later : OutlineEditor,
      _registeredNodeTypes (invoke unregister later) !! nodeType = None
      ∧ (∀ other : string, other ≠ nodeType →
           _registeredNodeTypes (invoke unregister later) !! other
           = _registeredNodeTypes later !! other)
      ∧ invoke unregister (invoke unregister later) = invoke unregister later.
Proof.
  simpl. split; [apply lookup_insert_eq|].
  split; [intros other Hne; by apply lookup_insert_ne|].
  intros later. split; [apply lookup_delete_eq|].
  split; [intros other Hne; by apply lookup_delete_ne|].
  destruct later; unfold set_registeredNodeTypes; simpl. f_equal.
  apply delete_id, lookup_delete_eq.
Qed.

(** ** Element mapping *)

Example getElementByKey_body_sample :
  getElementByKey "body" (this Samples.fresh_world) = Return (Element 1).
Proof. vm_compute. reflexivity. Qed.

Example getElementByKey_absent_sample :
  getElementByKey "p1" (this Samples.fresh_world)
  = Throw (Error "getElementByKey failed for key p1").
Proof. vm_compute. reflexivity. Qed.

(** C9. [getElementByKey] returns the element bound to the key when the
    mapping has one, and throws when the key is absent; it returns nothing
    in that case, and the call leaves the state as it was. *)
Theorem getElementByKey_bound_or_throws (key : NodeKey) (e : OutlineEditor) :
  (∀ element : HTMLElement,
     _keyToDOMMap e !! key = Some element →
     getElementByKey key e = Return element)
  ∧ (_keyToDOMMap e !! key = None →
     getElementByKey key e
     = Throw (Error (String.append "getElementByKey failed for key " key))
     ∧ ∀ element, getElementByKey key e ≠ Return element)
  ∧ (∀ (R : Reconciler) (w : World),
       perform (CallGetElementByKey key) w = w).
Proof.
  unfold getElementByKey. split; [|split].
  - intros element ->. reflexivity.
  - intros ->. split; [reflexivity|]. intros element. discriminate.
  - reflexivity.
Qed.

(** ** Construction *)

Example createOutlineEditor_sample :
  log (realm Samples.fresh_world) = [OnChange (Fn 1) 1%positive]
  ∧ (nodeMap <$> heap (realm Samples.fresh_world) !! 1%positive)
    = Some {["body"%string := createBodyNode]}
  ∧ _keyToDOMMap (this Samples.fresh_world)
    = {["body"%string := Element 1]}.
Proof. vm_compute. repeat split; reflexivity. Qed.

Example createOutlineEditor_no_callback_sample :
  log (realm (createOutlineEditor (Element 1) None 0 Samples.emptyRealm)) = [].
Proof. reflexivity. Qed.

Lemma alloc_fresh (vm : ViewModel) (h : gmap vmref ViewModel) :
  h !! fst (alloc vm h) = None ∧ snd (alloc vm h) !! fst (alloc vm h) = Some vm.
Proof.
  unfold alloc. simpl. split.
  - apply not_elem_of_dom, is_fresh.
  - apply lookup_insert_eq.
Qed.

(** C7. Constructing the editor with a root element and a change callback
    calls the callback once, during construction: the log grows by that one
    call and by nothing else, the reconciler has not run and nothing is
    scheduled.  The view model passed is a new object, it is the current
    one, and its node map holds the root node under [body] and no other
    node.  The key [body] is bound to the root element. *)
Theorem createOutlineEditor_notifies_once (editorElement : HTMLElement)
    (callback : Callback) (now : Z) (r : Realm) :
  let w := createOutlineEditor editorElement (Some callback) now r in
  let viewModel := getCurrentViewModel (this w) in
  log (realm w) = log r ++ [OnChange callback viewModel]
  ∧ heap r !! viewModel = None
  ∧ (∃ vm, heap (realm w) !! viewModel = Some vm
        ∧ nodeMap vm = {["body"%string := createBodyNode]}
        ∧ size (nodeMap vm) = 1%nat)
  ∧ _keyToDOMMap (this w) !! "body"%string = Some editorElement
  ∧ isUpdating (this w) = false
  ∧ microtasks (realm w) = microtasks r
  ∧ _onChange (this w) = Some callback.
Proof.
  unfold createOutlineEditor.
  destruct (alloc_fresh (new_ViewModel createBodyNode now) (heap r))
    as [Hfresh Hnew].
  destruct (alloc (new_ViewModel createBodyNode now) (heap r))
    as [viewModel h] eqn:Ealloc.
  simpl in *. repeat split; try done.
  - eexists. split.
    + rewrite lookup_alter_eq, Hnew. reflexivity.
    + simpl. split.
      * by rewrite insert_empty.
      * rewrite insert_empty. apply map_size_singleton.
Qed.

(** ** The update scheduler *)

Example update_deferred_sample :
  let w1 := Samples.pending_world in
  isUpdating (this w1) = true
  ∧ microtasks (realm w1) = [Commit 7%positive]
  ∧ getCurrentViewModel (this w1) = 1%positive
  ∧ log (realm w1) = [OnChange (Fn 1) 1%positive].
Proof. vm_compute. repeat split; reflexivity. Qed.

Example boundary_sample :
  ∃ w2, boundary Samples.pending_world = Some w2
    ∧ isUpdating (this w2) = false
    ∧ microtasks (realm w2) = []
    ∧ getCurrentViewModel (this w2) = 7%positive
    ∧ log (realm w2)
      = [OnChange (Fn 1) 1%positive; UpdateViewModel 7%positive false;
         OnChange (Fn 1) 7%positive]
    ∧ (_dirtyNodes <$> heap (realm w2) !! 7%positive) = Some None.
Proof. eexists. split; [reflexivity|]. vm_compute. repeat split; reflexivity. Qed.

Example update_reentrant_sample :
  update 8%positive (Some true) Samples.pending_world
  = Throws (Error "TODOL: Should never occur?") Samples.pending_world.
Proof. reflexivity. Qed.

Section SchedulerFacts.

Context `{R : Reconciler}.

(** The events of one run of the reconciler entered with flag [b]. *)
Local Abbreviation commit_events w vm b :=
  (UpdateViewModel vm b
     :: from_option (λ callback, [OnChange callback vm]) []
          (_onChange (this w))).

(** *** The reconciler *)

Lemma updateViewModel_this (vm : vmref) (w : World) :
  _isUpdating (this (updateViewModel vm w)) = _isUpdating (this w)
  ∧ _viewModel (this (updateViewModel vm w)) = vm
  ∧ _onChange (this (updateViewModel vm w)) = _onChange (this w).
Proof. by destruct w as [e r]. Qed.

Lemma updateViewModel_realm (vm : vmref) (w : World) :
  microtasks (realm (updateViewModel vm w)) = microtasks (realm w)
  ∧ log (realm (updateViewModel vm w))
    = log (realm w) ++ commit_events w vm (_isUpdating (this w)).
Proof.
  destruct w as [e r]. unfold updateViewModel. simpl.
  destruct (_onChange e); simpl; [|done].
  split; [done|]. by rewrite <- app_assoc.
Qed.

(** *** Calls while an update is pending *)

Lemma perform_while_updating (c : Call) (w : World) :
  _isUpdating (this w) = true →
  _isUpdating (this (perform c w)) = true
  ∧ realm (perform c w) = realm w
  ∧ _viewModel (this (perform c w)) = _viewModel (this w)
  ∧ _onChange (this (perform c w)) = _onChange (this w).
Proof.
  intros H. destruct c as [vm fs| | |u| | | | |]; simpl; try done.
  - unfold update. by rewrite H.
  - by destruct u.
Qed.

Lemma perform_all_while_updating (cs : list Call) (w : World) :
  _isUpdating (this w) = true →
  _isUpdating (this (perform_all cs w)) = true
  ∧ realm (perform_all cs w) = realm w
  ∧ _viewModel (this (perform_all cs w)) = _viewModel (this w)
  ∧ _onChange (this (perform_all cs w)) = _onChange (this w).
Proof.
  revert w. induction cs as [|c cs IH]; intros w H; [done|].
  destruct (perform_while_updating c w H) as (H1 & H2 & H3 & H4).
  destruct (IH (perform c w) H1) as (I1 & I2 & I3 & I4).
  unfold perform_all in *. simpl.
  rewrite I2, I3, I4. done.
Qed.

(** *** One request *)

Lemma update_idle_deferred (vm : vmref) (forceSync : option bool)
    (w : World) :
  _isUpdating (this w) = false →
  truthy forceSync = false →
  vm ≠ _viewModel (this w) →
  update vm forceSync w
  = Returns (on_realm (enqueue (Commit vm))
               (on_this (set_isUpdating true) w)).
Proof.
  intros Hidle Hfs Hne. unfold update.
  rewrite Hidle, Hfs. by rewrite decide_False.
Qed.

Lemma update_idle_sync (vm : vmref) (forceSync : option bool) (w : World) :
  _isUpdating (this w) = false →
  truthy forceSync = true →
  vm ≠ _viewModel (this w) →
  update vm forceSync w = Returns (updateViewModel vm w).
Proof.
  intros Hidle Hfs Hne. unfold update.
  rewrite Hidle, Hfs. by rewrite decide_False.
Qed.

Lemma update_idle_same (forceSync : option bool) (w : World) :
  _isUpdating (this w) = false →
  update (_viewModel (this w)) forceSync w = Returns w.
Proof.
  intros Hidle. unfold update.
  rewrite Hidle. by rewrite decide_True.
Qed.

(** The boundary of a world whose queue holds one commit. *)
Lemma boundary_commit (vm : vmref) (w : World) :
  microtasks (realm w) = [Commit vm] →
  ∃ w2, boundary w = Some w2
    ∧ _isUpdating (this w2) = false
    ∧ _viewModel (this w2) = vm
    ∧ _onChange (this w2) = _onChange (this w)
    ∧ microtasks (realm w2) = []
    ∧ log (realm w2) = log (realm w) ++ commit_events w vm false.
Proof.
  intros Hq. unfold boundary. rewrite Hq.
  set (w0 := on_this (set_isUpdating false) (on_realm (set_microtasks []) w)).
  exists (updateViewModel vm w0). split; [reflexivity|].
  destruct (updateViewModel_this vm w0) as (H1 & H2 & H3).
  destruct (updateViewModel_realm vm w0) as (H4 & H5).
  rewrite H1, H2, H3, H4, H5. by destruct w as [e r].
Qed.

(** *** Flag and queue agree in every state the editor reaches *)

Lemma createOutlineEditor_consistent (editorElement : HTMLElement)
    (onChange : option Callback) (now : Z) (r : Realm) :
  microtasks r = [] →
  consistent (createOutlineEditor editorElement onChange now r).
Proof.
  intros Hq. unfold consistent, createOutlineEditor.
  destruct (alloc _ _) as [viewModel h]. simpl.
  by destruct onChange.
Qed.

Lemma perform_consistent (c : Call) (w : World) :
  consistent w → consistent (perform c w).
Proof.
  unfold consistent. intros Hw.
  destruct c as [vm fs| | |u| | | | |]; simpl; try done.
  - unfold update.
    destruct (_isUpdating (this w)) eqn:Hflag; cbn [state_of];
      [by rewrite Hflag|].
    destruct (decide (vm = _viewModel (this w))); cbn [state_of];
      [by rewrite Hflag|].
    destruct (truthy fs); cbn [state_of].
    + destruct (updateViewModel_this vm w) as (H1 & _).
      destruct (updateViewModel_realm vm w) as (H2 & _).
      by rewrite H1, H2, Hflag.
    + exists vm. simpl. by rewrite Hw.
  - by destruct u.
Qed.

Lemma boundary_consistent (w w' : World) :
  consistent w → boundary w = Some w' → consistent w'.
Proof.
  unfold consistent. intros Hw Hb.
  destruct (_isUpdating (this w)).
  - destruct Hw as [vm Hq].
    destruct (boundary_commit vm w Hq) as (w2 & Hb2 & H1 & _ & _ & H2 & _).
    rewrite Hb in Hb2. injection Hb2 as ->. by rewrite H1.
  - unfold boundary in Hb. by rewrite Hw in Hb.
Qed.

(** One whole turn from an idle editor with an empty queue. *)
Lemma turn_from_idle (vm : vmref) (forceSync : option bool) (w : World) :
  _isUpdating (this w) = false →
  microtasks (realm w) = [] →
  ∃ w1, update vm forceSync w = Returns w1
    ∧ _isUpdating (this (drain (length (microtasks (realm w1))) w1)) = false
    ∧ microtasks (realm (drain (length (microtasks (realm w1))) w1)) = []
    ∧ _viewModel (this (drain (length (microtasks (realm w1))) w1)) = vm.
Proof.
  intros Hidle Hq.
  destruct (decide (vm = _viewModel (this w))) as [->|Hne].
  { exists w. rewrite update_idle_same, Hq by done. done. }
  destruct (truthy forceSync) eqn:Hfs.
  - exists (updateViewModel vm w). rewrite update_idle_sync by done.
    destruct (updateViewModel_this vm w) as (H1 & H2 & _).
    destruct (updateViewModel_realm vm w) as (H3 & _).
    rewrite H3, Hq. cbn [length drain]. rewrite H1, H2, H3. done.
  - eexists. rewrite update_idle_deferred by done.
    split; [reflexivity|].
    set (w1 := on_realm (enqueue (Commit vm))
                 (on_this (set_isUpdating true) w)).
    assert (microtasks (realm w1) = [Commit vm]) as Hq1.
    { subst w1. simpl. by rewrite Hq. }
    destruct (boundary_commit vm w1 Hq1) as (w2 & Hb & H1 & H2 & _ & H3 & _).
    rewrite Hq1. cbn [length drain]. rewrite Hb. done.
Qed.

Lemma last_cons_default {A : Type} (d x : A) (l : list A) :
  default d (last (x :: l)) = default x (last l).
Proof.
  revert d x. induction l as [|y l IH]; intros d x; [done|].
  change (last (x :: y :: l)) with (last (y :: l)).
  by rewrite (IH d y), (IH x y).
Qed.

Lemma turns_from_idle (requests : list (vmref * option bool)) (w : World) :
  _isUpdating (this w) = false →
  microtasks (realm w) = [] →
  ∃ w', turns requests w = Returns w'
    ∧ _isUpdating (this w') = false
    ∧ microtasks (realm w') = []
    ∧ _viewModel (this w')
      = default (_viewModel (this w)) (last (fst <$> requests)).
Proof.
  revert w. induction requests as [|[vm forceSync] requests IH];
    intros w Hidle Hq.
  { by exists w. }
  destruct (turn_from_idle vm forceSync w Hidle Hq)
    as (w1 & Hu & H1 & H2 & H3).
  destruct (IH _ H1 H2) as (w' & Ht & I1 & I2 & I3).
  exists w'. simpl. rewrite Hu, Ht. repeat split; try done.
  rewrite I3, H3. symmetry. apply last_cons_default.
Qed.

(** *** The claims on [update] *)

(** C1. From an idle editor with nothing queued, [update(vm)] without
    [forceSync] and with [vm] not the current view model returns with
    [isUpdating()] true, and it stays true whatever the caller does with
    the editor in the rest of the turn.  At the boundary the job clears
    the flag and then enters the reconciler with [vm] (the reconciler
    sees the flag false); afterwards the editor is idle, [vm] is current
    and the queue is empty.  Hence any sequence of requests, each made in
    a turn of its own, ends idle with the last requested view model
    current. *)
Theorem update_deferred_lifecycle (w : World) :
  isUpdating (this w) = false →
  microtasks (realm w) = [] →
  (∀ (vm : vmref) (forceSync : option bool),
     truthy forceSync = false →
     vm ≠ getCurrentViewModel (this w) →
     ∃ w1, update vm forceSync w = Returns w1
       ∧ (∀ calls : list Call,
            isUpdating (this (perform_all calls w1)) = true
            ∧ getCurrentViewModel (this (perform_all calls w1))
              = getCurrentViewModel (this w))
       ∧ (∀ calls : list Call,
            ∃ w2, boundary (perform_all calls w1) = Some w2
              ∧ isUpdating (this w2) = false
              ∧ log (realm w2) = log (realm w) ++ commit_events w vm false
              ∧ getCurrentViewModel (this w2) = vm
              ∧ microtasks (realm w2) = []))
  ∧ (∀ requests : list (vmref * option bool),
       ∃ w', turns requests w = Returns w'
         ∧ isUpdating (this w') = false
         ∧ microtasks (realm w') = []
         ∧ getCurrentViewModel (this w')
           = default (getCurrentViewModel (this w))
               (last (fst <$> requests))).
Proof.
  unfold isUpdating, getCurrentViewModel. intros Hidle Hq. split.
  - intros vm forceSync Hfs Hne. eexists.
    split; [by apply update_idle_deferred|].
    set (w1 := on_realm (enqueue (Commit vm))
                 (on_this (set_isUpdating true) w)).
    assert (_isUpdating (this w1) = true) as Hup by done.
    split; intros calls;
      destruct (perform_all_while_updating calls w1 Hup)
        as (P1 & P2 & P3 & P4).
    + by rewrite P1, P3.
    + assert (microtasks (realm (perform_all calls w1)) = [Commit vm])
        as Hq1.
      { rewrite P2. subst w1. simpl. by rewrite Hq. }
      destruct (boundary_commit vm _ Hq1)
        as (w2 & Hb & H1 & H2 & _ & H3 & H4).
      exists w2. rewrite Hb, H1, H2, H3, H4, P2, P4. done.
  - intros requests. by apply turns_from_idle.
Qed.

(** C2. While an update is pending, [update] throws for every view model
    and every [forceSync]; the state is left as it was: nothing is added
    to the queue, the flag and the current view model are untouched. *)
Theorem update_while_updating_throws (vm : vmref)
    (forceSync : option bool) (w : World) :
  isUpdating (this w) = true →
  update vm forceSync w = Throws (Error "TODOL: Should never occur?") w
  ∧ microtasks (realm (state_of (update vm forceSync w)))
    = microtasks (realm w)
  ∧ log (realm (state_of (update vm forceSync w))) = log (realm w).
Proof.
  unfold isUpdating. intros H. unfold update. by rewrite H.
Qed.

(** C3. From an idle editor, [update(vm, true)] with [vm] not the current
    view model runs the reconciler within the call: the reconciler is
    entered with the flag false, the call returns with the flag false,
    and no job is queued. *)
Theorem update_forceSync_runs_now (vm : vmref) (w : World) :
  isUpdating (this w) = false →
  vm ≠ getCurrentViewModel (this w) →
  ∃ w', update vm (Some true) w = Returns w'
    ∧ w' = updateViewModel vm w
    ∧ log (realm w') = log (realm w) ++ commit_events w vm false
    ∧ isUpdating (this w') = false
    ∧ microtasks (realm w') = microtasks (realm w)
    ∧ getCurrentViewModel (this w') = vm.
Proof.
  unfold isUpdating, getCurrentViewModel. intros Hidle Hne.
  exists (updateViewModel vm w).
  split; [by apply update_idle_sync|]. split; [done|].
  destruct (updateViewModel_this vm w) as (H1 & H2 & _).
  destruct (updateViewModel_realm vm w) as (H3 & H4).
  by rewrite H1, H2, H3, H4, Hidle.
Qed.

(** C4. From an idle editor, [update] with the current view model returns
    and leaves the whole state as it was: the editor fields, the heap,
    the queue and the log. *)
Theorem update_current_is_noop (forceSync : option bool) (w : World) :
  isUpdating (this w) = false →
  update (getCurrentViewModel (this w)) forceSync w = Returns w.
Proof. apply update_idle_same. Qed.

End SchedulerFacts.

(** ** The claims on [update] at the sample states *)

Lemma update_deferred_lifecycle_witness :
  (isUpdating (this Samples.idle_world) = false
   ∧ microtasks (realm Samples.idle_world) = [])
  ∧ (∃ w1, update 7%positive None Samples.idle_world = Returns w1
       ∧ (∀ calls : list Call,
            isUpdating (this (perform_all calls w1)) = true
            ∧ getCurrentViewModel (this (perform_all calls w1))
              = getCurrentViewModel (this Samples.idle_world))
       ∧ (∀ calls : list Call,
            ∃ w2, boundary (perform_all calls w1) = Some w2
              ∧ isUpdating (this w2) = false
              ∧ log (realm w2)
                = log (realm Samples.idle_world)
                  ++ UpdateViewModel 7%positive false
                     :: from_option (λ callback, [OnChange callback 7%positive])
                          [] (_onChange (this Samples.idle_world))
              ∧ getCurrentViewModel (this w2) = 7%positive
              ∧ microtasks (realm w2) = []))
  ∧ (∃ w', turns
             [(7%positive, None); (8%positive, Some true); (7%positive, None)]
             Samples.idle_world = Returns w'
       ∧ isUpdating (this w') = false
       ∧ microtasks (realm w') = []
       ∧ getCurrentViewModel (this w') = 7%positive).
Proof.
  assert (isUpdating (this Samples.idle_world) = false) as Hidle
    by reflexivity.
  assert (microtasks (realm Samples.idle_world) = []) as Hq by reflexivity.
  destruct (update_deferred_lifecycle Samples.idle_world Hidle Hq)
    as [Hone Hall].
  split; [by split|]. split.
  - apply (Hone 7%positive None); [reflexivity|].
    vm_compute. discriminate.
  - apply (Hall [(7%positive, None); (8%positive, Some true);
                 (7%positive, None)]).
Defined.

Lemma update_while_updating_throws_witness :
  isUpdating (this Samples.pending_world) = true
  ∧ update 8%positive (Some true) Samples.pending_world
    = Throws (Error "TODOL: Should never occur?") Samples.pending_world
  ∧ microtasks
      (realm (state_of (update 8%positive (Some true)
                          Samples.pending_world)))
    = microtasks (realm Samples.pending_world)
  ∧ log (realm (state_of (update 8%positive (Some true)
                            Samples.pending_world)))
    = log (realm Samples.pending_world).
Proof.
  split; [reflexivity|].
  apply (update_while_updating_throws 8%positive (Some true)
           Samples.pending_world).
  reflexivity.
Defined.

Lemma update_forceSync_runs_now_witness :
  isUpdating (this Samples.idle_world) = false
  ∧ 7%positive ≠ getCurrentViewModel (this Samples.idle_world)
  ∧ ∃ w', update 7%positive (Some true) Samples.idle_world = Returns w'
      ∧ w' = updateViewModel 7%positive Samples.idle_world
      ∧ log (realm w')
        = log (realm Samples.idle_world)
          ++ UpdateViewModel 7%positive false
             :: from_option (λ callback, [OnChange callback 7%positive]) []
                  (_onChange (this Samples.idle_world))
      ∧ isUpdating (this w') = false
      ∧ microtasks (realm w') = microtasks (realm Samples.idle_world)
      ∧ getCurrentViewModel (this w') = 7%positive.
Proof.
  assert (7%positive ≠ getCurrentViewModel (this Samples.idle_world)) as Hne.
  { vm_compute. discriminate. }
  split; [reflexivity|]. split; [exact Hne|].
  apply (update_forceSync_runs_now 7%positive Samples.idle_world);
    [reflexivity|exact Hne].
Defined.

Lemma update_current_is_noop_witness :
  isUpdating (this Samples.idle_world) = false
  ∧ update (getCurrentViewModel (this Samples.idle_world)) None
      Samples.idle_world
    = Returns Samples.idle_world.
Proof.
  split; [reflexivity|].
  apply (update_current_is_noop None Samples.idle_world).
  reflexivity.
Defined.

(** ** Further properties of the registries *)

Module JSSetFacts.
Section Facts.
Context {A : Type} `{EqDecision A}.
Implicit Types (x y : A) (s : JSSet.t A).

Lemma has_true x s : JSSet.has x s = true ↔ x ∈ s.
Proof. unfold JSSet.has. apply bool_decide_eq_true. Qed.

Lemma add_old x s : x ∈ s → JSSet.add x s = s.
Proof.
  intros Hin. unfold JSSet.add.
  by rewrite (proj2 (has_true x s) Hin).
Qed.

Lemma add_new x s : x ∉ s → JSSet.add x s = s ++ [x].
Proof.
  intros Hnin. unfold JSSet.add.
  destruct (JSSet.has x s) eqn:E; [|done].
  by apply has_true in E.
Qed.

Lemma elem_of_add x y s : y ∈ JSSet.add x s ↔ y = x ∨ y ∈ s.
Proof.
  destruct (decide (x ∈ s)) as [Hin|Hnin].
  - rewrite add_old by done. split; [by right|]. by intros [->|?].
  - rewrite add_new by done. rewrite elem_of_app, list_elem_of_singleton.
    tauto.
Qed.

Lemma NoDup_add x s : NoDup s → NoDup (JSSet.add x s).
Proof.
  intros Hs. destruct (decide (x ∈ s)) as [Hin|Hnin].
  - by rewrite add_old.
  - rewrite add_new by done. apply NoDup_app. split; [done|].
    split; [|apply NoDup_singleton].
    intros y Hy ->%list_elem_of_singleton. done.
Qed.

Lemma elem_of_delete x y s : y ∈ JSSet.delete x s ↔ y ≠ x ∧ y ∈ s.
Proof. unfold JSSet.delete. by rewrite list_elem_of_filter. Qed.

Lemma NoDup_delete x s : NoDup s → NoDup (JSSet.delete x s).
Proof. apply NoDup_filter. Qed.

Lemma delete_absent x s : x ∉ s → JSSet.delete x s = s.
Proof.
  unfold JSSet.delete. induction s as [|y s IH]; intros Hnin; [done|].
  apply not_elem_of_cons in Hnin as [Hne Hnin].
  rewrite filter_cons_True by done. f_equal. by apply IH.
Qed.

Lemma delete_add_new x s : x ∉ s → JSSet.delete x (JSSet.add x s) = s.
Proof.
  intros Hnin. rewrite add_new by done. unfold JSSet.delete.
  rewrite filter_app, filter_cons_False, filter_nil, app_nil_r
    by (intros Hne; by apply Hne).
  by apply delete_absent.
Qed.

Lemma delete_delete x s :
  JSSet.delete x (JSSet.delete x s) = JSSet.delete x s.
Proof. apply delete_absent. rewrite elem_of_delete. by intros [? _]. Qed.

End Facts.
End JSSetFacts.

Lemma set_textTransforms_same (e : OutlineEditor) :
  set_textTransforms (_textTransforms e) e = e.
Proof. by destruct e. Qed.

Lemma set_registeredNodeTypes_same (e : OutlineEditor) :
  set_registeredNodeTypes (_registeredNodeTypes e) e = e.
Proof. by destruct e. Qed.

Example addTextTransform_twice_sample :
  let e := this Samples.fresh_world in
  let '(u1, e1) := addTextTransform (TransformFn 1) e in
  let '(u2, e2) := addTextTransform (TransformFn 2) e1 in
  let '(u3, e3) := addTextTransform (TransformFn 1) e2 in
  _textTransforms e3 = [TransformFn 1; TransformFn 2]
  ∧ _textTransforms (invoke u3 e3) = [TransformFn 2]
  ∧ invoke u1 (invoke u3 e3) = invoke u3 e3.
Proof. vm_compute. repeat split; reflexivity. Qed.

(** X1. [addTextTransform] keeps the transforms a set in registration
    order: the function is registered afterwards; one that is new goes to
    the end, behind all earlier ones; one that is registered already
    leaves the editor exactly as it was (no second entry, no move); and a
    set without repetition stays so. *)
Theorem addTextTransform_registers_once (transformFn : Transform)
    (e : OutlineEditor) :
  let e1 := snd (addTextTransform transformFn e) in
  transformFn ∈ _textTransforms e1
  ∧ (transformFn ∉ _textTransforms e →
       _textTransforms e1 = _textTransforms e ++ [transformFn])
  ∧ (transformFn ∈ _textTransforms e → e1 = e)
  ∧ (NoDup (_textTransforms e) → NoDup (_textTransforms e1)).
Proof.
  simpl. split; [apply JSSetFacts.elem_of_add; by left|].
  split; [apply JSSetFacts.add_new|].
  split; [|apply JSSetFacts.NoDup_add].
  intros Hin. rewrite JSSetFacts.add_old by done.
  apply set_textTransforms_same.
Qed.

(** X2. The closure [addTextTransform] returns, run in any later state,
    removes that function and no other, keeps the set free of repetition,
    and run again changes nothing. *)
Theorem addTextTransform_unregister (transformFn : Transform)
    (e later : OutlineEditor) :
  let unregister := fst (addTextTransform transformFn e) in
  (transformFn ∉ _textTransforms (invoke unregister later))
  ∧ (∀ other : Transform, other ≠ transformFn →
       (other ∈ _textTransforms (invoke unregister later)
        ↔ other ∈ _textTransforms later))
  ∧ (NoDup (_textTransforms later) →
       NoDup (_textTransforms (invoke unregister later)))
  ∧ invoke unregister (invoke unregister later) = invoke unregister later.
Proof.
  simpl. split; [rewrite JSSetFacts.elem_of_delete; by intros [? _]|].
  split; [intros other Hne; rewrite JSSetFacts.elem_of_delete; tauto|].
  split; [apply JSSetFacts.NoDup_delete|].
  unfold set_textTransforms. simpl. by rewrite JSSetFacts.delete_delete.
Qed.

(** X3. Registering a text transform and running the returned closure
    gives back the editor exactly as it was if and only if the function
    was not registered before: for a function registered twice, the one
    closure drops the registration altogether. *)
Theorem addTextTransform_round_trip (transformFn : Transform)
    (e : OutlineEditor) :
  let unregister := fst (addTextTransform transformFn e) in
  let e1 := snd (addTextTransform transformFn e) in
  invoke unregister e1 = e ↔ transformFn ∉ _textTransforms e.
Proof.
  simpl. split.
  - intros Heq Hin. apply (f_equal _textTransforms) in Heq. simpl in Heq.
    rewrite <- Heq in Hin. apply JSSetFacts.elem_of_delete in Hin as [Hne _].
    by apply Hne.
  - intros Hnin. unfold set_textTransforms. simpl.
    rewrite JSSetFacts.delete_add_new by done. by destruct e.
Qed.

(** X4. Registering a node type and running the returned closure gives
    back the editor exactly as it was if and only if the name was unbound
    before: a class bound to the name earlier (a built-in one included) is
    not restored. *)
Theorem addNodeType_round_trip (nodeType : string) (klass : NodeClass)
    (e : OutlineEditor) :
  let unregister := fst (addNodeType nodeType klass e) in
  let e1 := snd (addNodeType nodeType klass e) in
  invoke unregister e1 = e ↔ _registeredNodeTypes e !! nodeType = None.
Proof.
  simpl. split.
  - intros Heq. apply (f_equal _registeredNodeTypes) in Heq. simpl in Heq.
    rewrite <- Heq. apply lookup_delete_eq.
  - intros Hnone. unfold set_registeredNodeTypes. simpl.
    rewrite delete_insert_eq, delete_id by done. by destruct e.
Qed.

(** X5. The closures of two registrations of one type name are the same
    capability: after registering [k1] and then [k2] under the name, the
    name is bound to [k2], and the closure of the first registration
    removes that binding; the closure of the second then changes
    nothing. *)
Theorem addNodeType_same_name (nodeType : string) (k1 k2 : NodeClass)
    (e : OutlineEditor) :
  let u1 := fst (addNodeType nodeType k1 e) in
  let e1 := snd (addNodeType nodeType k1 e) in
  let u2 := fst (addNodeType nodeType k2 e1) in
  let e2 := snd (addNodeType nodeType k2 e1) in
  _registeredNodeTypes e2 !! nodeType = Some k2
  ∧ _registeredNodeTypes (invoke u1 e2) !! nodeType = None
  ∧ invoke u2 (invoke u1 e2) = invoke u1 e2
  ∧ _registeredNodeTypes (invoke u1 e2)
    = delete nodeType (_registeredNodeTypes e).
Proof.
  simpl. split; [apply lookup_insert_eq|].
  split; [apply lookup_delete_eq|].
  unfold set_registeredNodeTypes. simpl. split.
  - f_equal. apply delete_id, lookup_delete_eq.
  - by rewrite !delete_insert_eq.
Qed.

(** X6. The two registries do not touch each other nor the rest of the
    editor: registering or unregistering a node type leaves the text
    transforms alone and the reverse, both leave the flag, the current
    view model, the element and the key to element mapping alone, and a
    node type and a text transform may be registered in either order. *)
Theorem registries_independent (nodeType : string) (klass : NodeClass)
    (transformFn : Transform) (u : Unregister) (e : OutlineEditor) :
  let en := snd (addNodeType nodeType klass e) in
  let et := snd (addTextTransform transformFn e) in
  _textTransforms en = _textTransforms e
  ∧ _registeredNodeTypes et = _registeredNodeTypes e
  ∧ snd (addTextTransform transformFn en) = snd (addNodeType nodeType klass et)
  ∧ (∀ e' : OutlineEditor,
       e' = en ∨ e' = et ∨ e' = invoke u e →
       _isUpdating e' = _isUpdating e
       ∧ _viewModel e' = _viewModel e
       ∧ _editorElement e' = _editorElement e
       ∧ _keyToDOMMap e' = _keyToDOMMap e
       ∧ _onChange e' = _onChange e).
Proof.
  simpl. repeat split; try done;
    destruct H as [->| [->| ->]]; try done; by destruct u.
Qed.

(** ** Further properties of construction *)

(** X7. In the editor [createOutlineEditor] returns, [getEditorElement] is
    the root element, [getElementByKey] returns that element for the key
    [body] and throws for every other key, whatever the callback, the
    clock and the realm. *)
Theorem createOutlineEditor_element_mapping (editorElement : HTMLElement)
    (onChange : option Callback) (now : Z) (r : Realm) (key : NodeKey) :
  let e := this (createOutlineEditor editorElement onChange now r) in
  getEditorElement e = editorElement
  ∧ getElementByKey key e
    = if decide (key = "body"%string)
      then Return editorElement
      else Throw (Error (String.append "getElementByKey failed for key " key)).
Proof.
  unfold createOutlineEditor.
  destruct (alloc _ _) as [viewModel h]. simpl. split; [done|].
  unfold getElementByKey. simpl.
  destruct (decide (key = "body"%string)) as [->|Hne].
  - by rewrite lookup_insert_eq.
  - by rewrite lookup_insert_ne, lookup_empty.
Qed.

(** X8. Without a change callback ([null] or [undefined]) construction
    calls nothing: the log is as before.  The callback has no other
    influence: the heap, the queue and every field of the editor but
    [_onChange] are those of a construction with a callback. *)
Theorem createOutlineEditor_without_callback (editorElement : HTMLElement)
    (callback : Callback) (now : Z) (r : Realm) :
  let w0 := createOutlineEditor editorElement None now r in
  let w1 := createOutlineEditor editorElement (Some callback) now r in
  log (realm w0) = log r
  ∧ _onChange (this w0) = None
  ∧ heap (realm w1) = heap (realm w0)
  ∧ microtasks (realm w1) = microtasks (realm w0)
  ∧ this w1 = set_onChange (Some callback) (this w0).
Proof.
  unfold createOutlineEditor.
  destruct (alloc _ _) as [viewModel h]. done.
Qed.

(** ** Further properties of the diff *)

Example getDiff_nothing_dirty_sample :
  getDiffFromViewModel 5
    {| nodeMap := nodeMap Samples.pendingVM; selection := None;
       _dirtyNodes := Some []; _dirtySubTrees := Some []; timeStamp := 1 |}
  = Return {| diff_dirtySubTrees := []; diff_nodes := [];
              diff_selection := None; diff_timeStamp := 5 |}.
Proof. reflexivity. Qed.

(** X9. On a pending view model, every entry of [nodes] is a node exactly
    when every dirty key has a node of its own in the node map. *)
Theorem getDiffFromViewModel_nodes_defined (now : Z) (vm : ViewModel)
    (dirtyNodes dirtySubTrees : list NodeKey) :
  _dirtyNodes vm = Some dirtyNodes →
  _dirtySubTrees vm = Some dirtySubTrees →
  ∃ d, getDiffFromViewModel now vm = Return d
    ∧ (Forall (λ entry, ∃ n : Node, entry = NodeEntry n) (diff_nodes d)
       ↔ ∀ k : NodeKey, k ∈ dirtyNodes → is_Some (nodeMap vm !! k)).
Proof.
  intros Hn Hs. eexists. split; [by apply getDiff_pending_eq|]. simpl.
  rewrite Forall_forall. split.
  - intros H k Hk.
    destruct (H (getProperty (nodeMap vm) k)) as [n Hn'].
    { apply list_elem_of_fmap. by exists k. }
    apply getProperty_node in Hn'. by exists n.
  - intros H entry (k & -> & Hk)%list_elem_of_fmap.
    destruct (H k Hk) as [n Hn']. exists n. by apply getProperty_own.
Qed.

Lemma getDiffFromViewModel_nodes_defined_witness :
  ∃ d, getDiffFromViewModel 2000 Samples.danglingVM = Return d
    ∧ (Forall (λ entry, ∃ n : Node, entry = NodeEntry n) (diff_nodes d)
       ↔ ∀ k : NodeKey,
           k ∈ ["body"%string; "gone"%string] →
           is_Some (nodeMap Samples.danglingVM !! k)).
Proof.
  apply (getDiffFromViewModel_nodes_defined 2000 Samples.danglingVM
           ["body"%string; "gone"%string] ["body"%string]);
    reflexivity.
Defined.

(** X10. On a pending view model, the nodes in [nodes] are the nodes of
    the dirty keys and no others: a node of the node map that no dirty key
    leads to is not in the diff; and [nodes] is empty exactly when no key
    is dirty. *)
Theorem getDiffFromViewModel_only_dirty (now : Z) (vm : ViewModel)
    (dirtyNodes dirtySubTrees : list NodeKey) :
  _dirtyNodes vm = Some dirtyNodes →
  _dirtySubTrees vm = Some dirtySubTrees →
  ∃ d, getDiffFromViewModel now vm = Return d
    ∧ (∀ n : Node,
         NodeEntry n ∈ diff_nodes d
         ↔ ∃ k : NodeKey, k ∈ dirtyNodes ∧ nodeMap vm !! k = Some n)
    ∧ (diff_nodes d = [] ↔ dirtyNodes = []).
Proof.
  intros Hn Hs. eexists. split; [by apply getDiff_pending_eq|]. simpl.
  split.
  - intros n. rewrite list_elem_of_fmap. split.
    + intros (k & Hk & Hin). exists k. split; [done|].
      by apply getProperty_node.
    + intros (k & Hin & Hk). exists k. split; [|done].
      symmetry. by apply getProperty_own.
  - split.
    + intros H. by apply fmap_nil_inv in H.
    + by intros ->.
Qed.

Lemma getDiffFromViewModel_only_dirty_witness :
  ∃ d, getDiffFromViewModel 2000 Samples.pendingVM = Return d
    ∧ (∀ n : Node,
         NodeEntry n ∈ diff_nodes d
         ↔ ∃ k : NodeKey,
             k ∈ ["t1"%string; "p1"%string]
             ∧ nodeMap Samples.pendingVM !! k = Some n)
    ∧ (diff_nodes d = [] ↔ ["t1"%string; "p1"%string] = []).
Proof.
  apply (getDiffFromViewModel_only_dirty 2000 Samples.pendingVM
           ["t1"%string; "p1"%string] ["p1"%string; "body"%string]);
    reflexivity.
Defined.

(** ** The React hook *)

Example useOutlineEditor_sample :
  let h1 := useOutlineEditor_effect (mkRender (Some (Element 1)) (Some (Fn 1)) 0)
              (useState_initial Samples.emptyRealm) in
  let h2 := useOutlineEditor_effect (mkRender (Some (Element 2)) (Some (Fn 2)) 9)
              h1 in
  let h3 := useOutlineEditor_effect (mkRender None (Some (Fn 2)) 10) h2 in
  (getEditorElement <$> useOutlineEditor h2) = Some (Element 1)
  ∧ (_onChange <$> useOutlineEditor h2) = Some (Some (Fn 2))
  ∧ log (host h2) = [OnChange (Fn 1) 1%positive]
  ∧ useOutlineEditor h3 = None.
Proof. vm_compute. repeat split; reflexivity. Qed.

Lemma set_onChange_same (e : OutlineEditor) : set_onChange (_onChange e) e = e.
Proof. by destruct e. Qed.

Lemma createOutlineEditor_onChange (editorElement : HTMLElement)
    (onChange : option Callback) (now : Z) (r : Realm) :
  _onChange (this (createOutlineEditor editorElement onChange now r))
  = onChange.
Proof. unfold createOutlineEditor. by destruct (alloc _ _). Qed.

Lemma renders_cons (rd : Render) (rds : list Render) (h : Hook) :
  renders (rd :: rds) h = renders rds (useOutlineEditor_effect rd h).
Proof. done. Qed.

(** With an editor in the cell and an element in every render, the
    effects only install the callbacks, one after the other. *)
Lemma renders_mounted (rds : list Render) (e : OutlineEditor) (r : Realm) :
  Forall (λ rd, current rd ≠ None) rds →
  renders rds {| outlineEditor := Some e; host := r |}
  = {| outlineEditor :=
         Some (from_option (λ rd, set_onChange (onChange_arg rd) e) e
                 (last rds));
       host := r |}.
Proof.
  revert e. induction rds as [|rd rds IH]; intros e Hall; [done|].
  apply Forall_cons in Hall as [Hrd Hall].
  rewrite renders_cons. unfold useOutlineEditor_effect.
  destruct (current rd) as [el|]; [|done]. cbn [outlineEditor host].
  rewrite IH by done. f_equal. f_equal.
  destruct rds as [|rd' rds]; [done|].
  change (last (rd :: rd' :: rds)) with (last (rd' :: rds)).
  destruct (last (rd' :: rds)) eqn:E; [done|].
  by apply last_None in E.
Qed.

Lemma useOutlineEditor_effect_mount (rd : Render)
    (editorElement : HTMLElement) (r : Realm) :
  current rd = Some editorElement →
  useOutlineEditor_effect rd (useState_initial r)
  = {| outlineEditor :=
         Some (this (createOutlineEditor editorElement (onChange_arg rd)
                       (render_now rd) r));
       host := realm (createOutlineEditor editorElement (onChange_arg rd)
                        (render_now rd) r) |}.
Proof. intros Hel. unfold useOutlineEditor_effect. by rewrite Hel. Qed.

(** X11. Running the effect again after a render with the same element
    and callback changes nothing, whatever the clock: the re-render that
    [setOutlineEditor] causes builds no second editor and calls no
    callback. *)
Theorem useOutlineEditor_effect_settles (rd : Render) (later : Z) (h : Hook) :
  useOutlineEditor_effect
    (mkRender (current rd) (onChange_arg rd) later)
    (useOutlineEditor_effect rd h)
  = useOutlineEditor_effect rd h.
Proof.
  unfold useOutlineEditor_effect. simpl.
  destruct h as [[e|] r]; destruct (current rd) as [el|]; simpl; done.
Qed.

(** X12. While the ref holds an element, the hook builds one editor: over
    any run of renders from the empty cell, each with an element, the
    editor is the one [createOutlineEditor] built at the first render, on
    the element and with the notification of that render; the later
    renders only replace [_onChange] by their callback, and an element
    that differs from the first is ignored. *)
Theorem useOutlineEditor_builds_once (rd : Render) (rds : list Render)
    (editorElement : HTMLElement) (r : Realm) :
  current rd = Some editorElement →
  Forall (λ rd', current rd' ≠ None) rds →
  let w := createOutlineEditor editorElement (onChange_arg rd)
             (render_now rd) r in
  let h := renders (rd :: rds) (useState_initial r) in
  useOutlineEditor h
  = Some (set_onChange (onChange_arg (default rd (last rds))) (this w))
  ∧ host h = realm w
  ∧ (getEditorElement <$> useOutlineEditor h) = Some editorElement
  ∧ log (host h) = log (notify (onChange_arg rd) (_viewModel (this w)) r).
Proof.
  intros Hel Hall w h.
  assert (h = {| outlineEditor :=
                   Some (set_onChange (onChange_arg (default rd (last rds)))
                           (this w));
                 host := realm w |}) as ->.
  { subst h. rewrite renders_cons.
    rewrite (useOutlineEditor_effect_mount rd editorElement r Hel).
    rewrite renders_mounted by done. fold w. f_equal. f_equal.
    destruct (last rds); simpl; [done|].
    assert (_onChange (this w) = onChange_arg rd) as Hcb
      by apply createOutlineEditor_onChange.
    rewrite <- Hcb. by rewrite set_onChange_same. }
  subst w. unfold useOutlineEditor, createOutlineEditor.
  destruct (alloc (new_ViewModel createBodyNode (render_now rd)) (heap r))
    as [viewModel hp].
  simpl. repeat split; try done. by destruct (onChange_arg rd).
Qed.

Lemma useOutlineEditor_builds_once_witness :
  let rd := mkRender (Some (Element 1)) (Some (Fn 1)) 0 in
  let rds := [mkRender (Some (Element 2)) (Some (Fn 2)) 9;
              mkRender (Some (Element 1)) None 12] in
  let w := createOutlineEditor (Element 1) (onChange_arg rd)
             (render_now rd) Samples.emptyRealm in
  let h := renders (rd :: rds) (useState_initial Samples.emptyRealm) in
  useOutlineEditor h
  = Some (set_onChange (onChange_arg (default rd (last rds))) (this w))
  ∧ host h = realm w
  ∧ (getEditorElement <$> useOutlineEditor h) = Some (Element 1)
  ∧ log (host h)
    = log (notify (onChange_arg rd) (_viewModel (this w)) Samples.emptyRealm).
Proof.
  apply (useOutlineEditor_builds_once
           (mkRender (Some (Element 1)) (Some (Fn 1)) 0)
           [mkRender (Some (Element 2)) (Some (Fn 2)) 9;
            mkRender (Some (Element 1)) None 12]
           (Element 1) Samples.emptyRealm).
  - reflexivity.
  - repeat constructor; discriminate.
Defined.

(** X13. When the ref holds no element the effect leaves the cell empty:
    an editor in the cell is dropped, none is built, and the realm is
    untouched (no callback is called, nothing is allocated, and jobs the
    dropped editor has queued stay in the queue). *)
Theorem useOutlineEditor_without_element (onChange : option Callback)
    (now : Z) (h : Hook) :
  let h' := useOutlineEditor_effect (mkRender None onChange now) h in
  useOutlineEditor h' = None ∧ host h' = host h.
Proof.
  unfold useOutlineEditor_effect, useOutlineEditor. simpl.
  by destruct h as [[e|] r].
Qed.


(** ** Histories of one editor *)

Example steps_sample :
  let w := steps [Do (CallUpdate 7%positive None);
                  Do (CallUpdate 8%positive None);
                  Do (CallAddNodeType "custom" (Custom "K"));
                  Boundary; Boundary;
                  Do (CallUpdate 8%positive (Some true))]
             Samples.idle_world in
  microtasks (realm w) = []
  ∧ isUpdating (this w) = false
  ∧ getCurrentViewModel (this w) = 8%positive
  ∧ log (realm w)
    = [OnChange (Fn 1) 1%positive;
       UpdateViewModel 7%positive false; OnChange (Fn 1) 7%positive;
       UpdateViewModel 8%positive false; OnChange (Fn 1) 8%positive].
Proof. vm_compute. repeat split; reflexivity. Qed.

Section HistoryFacts.

Context `{R : Reconciler}.

Lemma step_consistent (s : Step) (w : World) :
  consistent w → consistent (step s w).
Proof.
  intros Hw. destruct s as [c|]; simpl.
  - by apply perform_consistent.
  - destruct (boundary w) as [w'|] eqn:Hb; simpl; [|done].
    by apply (boundary_consistent w w').
Qed.

Lemma steps_consistent (ss : list Step) (w : World) :
  consistent w → consistent (steps ss w).
Proof.
  revert w. induction ss as [|s ss IH]; intros w Hw; [done|].
  apply (IH (step s w)). by apply step_consistent.
Qed.

(** X15. In every state an editor reaches from its construction by calls
    and boundaries (the reconciler being the modelled one, which queues
    nothing and leaves the flag alone), at most one commit is queued, one
    is queued exactly when [isUpdating()] is true, and [update] throws
    exactly then. *)
Theorem one_commit_at_most (ss : list Step) (editorElement : HTMLElement)
    (onChange : option Callback) (now : Z) (r : Realm) :
  microtasks r = [] →
  let w := steps ss (createOutlineEditor editorElement onChange now r) in
  length (microtasks (realm w)) ≤ 1
  ∧ (isUpdating (this w) = true ↔ microtasks (realm w) ≠ [])
  ∧ (∀ (vm : vmref) (forceSync : option bool),
       update vm forceSync w = Throws (Error "TODOL: Should never occur?") w
       ↔ microtasks (realm w) ≠ []).
Proof.
  intros Hq w.
  assert (consistent w) as Hw.
  { apply steps_consistent. by apply createOutlineEditor_consistent. }
  clearbody w. unfold consistent, isUpdating in *. unfold update.
  destruct (_isUpdating (this w)).
  - destruct Hw as [vm0 ->]. simpl. split; [lia|]. split; [done|].
    intros vm forceSync. done.
  - rewrite Hw. simpl. split; [lia|]. split; [done|].
    intros vm forceSync. split; [|done].
    destruct (decide (vm = _viewModel (this w))); [done|].
    by destruct (truthy forceSync).
Qed.

End HistoryFacts.

Lemma one_commit_at_most_witness :
  let w := steps [Do (CallUpdate 7%positive None);
                  Do (CallUpdate 8%positive (Some true))]
             (createOutlineEditor (Element 1) (Some (Fn 1)) 0
                Samples.emptyRealm) in
  length (microtasks (realm w)) ≤ 1
  ∧ (isUpdating (this w) = true ↔ microtasks (realm w) ≠ [])
  ∧ (∀ (vm : vmref) (forceSync : option bool),
       update vm forceSync w = Throws (Error "TODOL: Should never occur?") w
       ↔ microtasks (realm w) ≠ []).
Proof.
  apply (one_commit_at_most
           [Do (CallUpdate 7%positive None);
            Do (CallUpdate 8%positive (Some true))]
           (Element 1) (Some (Fn 1)) 0 Samples.emptyRealm).
  reflexivity.
Defined.
